(** * pytest-confluence-report: the XML views and the report page

    A shallow embedding of [src/report/xml.py]: the read-only views over a
    parsed JUnit document ([_Outcome], [_Testcase], [_Testsuite],
    [_Testsuites]), the [TestXml] interface with its two implementations
    ([_TestXmlFromJUnit], [PytestXml]) and the [ReportPage] context manager,
    followed by the properties the specification states about them.

    Python's [int] is unbounded and is modelled by [Z]; [str] by [string].
    Every Python class is a module holding the record of its attributes
    (type [t]) and one definition per method, under the method's name. *)

From Stdlib Require Import ZArith List String Ascii Bool Lia.
From Stdlib Require Import DecimalString DecimalPos DecimalZ.
Import ListNotations.

Open Scope string_scope.
Open Scope Z_scope.

(** ** Python values the code relies on *)

(** The line feed, written ['\n'] in the source. *)
Definition LF : string := String "010"%char EmptyString.

(** The double quote that appears inside the log message. *)
Definition DQUOTE : string := String "034"%char EmptyString.

(** [str(n)] for an [int], which is also what an f-string field [{n}]
    produces: the decimal digits, with a leading minus sign below zero. *)
Definition str_int (n : Z) : string := NilZero.string_of_int (Z.to_int n).

(** Truth value of a [str]: only the empty string is falsy. *)
Definition truthy (s : string) : bool :=
  match s with
  | EmptyString => false
  | String _ _ => true
  end.

(** Exceptions.  [StopIteration] is the only one the module's own code
    meets; every other exception is identified by its class and message. *)
Inductive BaseException : Type :=
| StopIteration
| Raised (cls msg : string).

(** The result of a call that may raise. *)
Definition Raises (A : Type) : Type := (BaseException + A)%type.

(** A built-in iterator over an ordered collection: the elements not yet
    produced.  [next] hands out the first of them and advances; on an
    exhausted iterator it raises [StopIteration] and stays exhausted. *)
Definition Iterator (A : Type) : Type := list A.

Definition iter {A : Type} (collection : list A) : Iterator A := collection.

Definition next {A : Type} (it : Iterator A) : Raises A * Iterator A :=
  match it with
  | [] => (inl StopIteration, [])
  | x :: rest => (inr x, rest)
  end.

(** The iterator protocol ([typing.Iterator]): a class with [__next__]. *)
Class PyIterator (I A : Type) : Type :=
  { py_next : I -> Raises A * I }.

(** [list(it)]: call [__next__] until it raises [StopIteration].  The fuel
    bounds the number of calls; [None] means the fuel ran out first. *)
Fixpoint collect {I A : Type} `{PyIterator I A} (fuel : nat) (it : I)
  : option (Raises (list A) * I) :=
  match fuel with
  | O => None
  | S fuel' =>
      match py_next it with
      | (inl StopIteration, it') => Some (inr [], it')
      | (inl e, it') => Some (inl e, it')
      | (inr a, it') =>
          match collect fuel' it' with
          | Some (inr l, it'') => Some (inr (a :: l), it'')
          | other => other
          end
      end
  end.

(** [k] further calls of [__next__], keeping every outcome. *)
Fixpoint next_calls {I A : Type} `{PyIterator I A} (k : nat) (it : I)
  : list (Raises A) * I :=
  match k with
  | O => ([], it)
  | S k' =>
      let '(r, it') := py_next it in
      let '(rs, it'') := next_calls k' it' in
      (r :: rs, it'')
  end.

(** ** The parsed document (package junitparser)

    The parser is an external collaborator.  Only what the views read from
    its objects is modelled: the attributes and the order of the children. *)

Module JResult.
(** The result element of a case: a failure, an error or a skip. *)
Inductive t : Type :=
| Failure (message : string)
| Error (message : string)
| Skipped (message : string).
End JResult.

Module JCase.
Record t : Type := mk
  { name : string;
    classname : string;
    result : option JResult.t }.
End JCase.

Module JSuite.
Record t : Type := mk
  { name : string;
    cases : list JCase.t }.

Definition __iter__ (self : t) : Iterator JCase.t := iter (cases self).
Definition __len__ (self : t) : Z := Z.of_nat (List.length (cases self)).
End JSuite.

Module JUnitXml.
Record t : Type := mk
  { name : string;
    tests : Z;
    skipped : Z;
    failures : Z;
    errors : Z;
    suites : list JSuite.t }.

Definition __iter__ (self : t) : Iterator JSuite.t := iter (suites self).
Definition __len__ (self : t) : Z := Z.of_nat (List.length (suites self)).
End JUnitXml.

(** ** class _Outcome *)

Module _Outcome.
Record t : Type := mk { _report : JUnitXml.t }.

Definition __init__ (report : JUnitXml.t) : t := {| _report := report |}.

Definition total (self : t) : Z := JUnitXml.tests (_report self).
Definition skipped (self : t) : Z := JUnitXml.skipped (_report self).
Definition failed (self : t) : Z := JUnitXml.failures (_report self).
Definition errored (self : t) : Z := JUnitXml.errors (_report self).

Definition passed (self : t) : Z :=
  total self - skipped self - failed self - errored self.

(** A [dict] literal keeps its keys in the order written. *)
Definition as_dict (self : t) : list (string * Z) :=
  [ ("total", total self);
    ("skipped", skipped self);
    ("failed", failed self);
    ("errored", errored self);
    ("passed", passed self) ].
End _Outcome.

(** ** class _Testcase *)

Module _Testcase.
Record t : Type := mk { _case : JCase.t }.

Definition __init__ (case : JCase.t) : t := {| _case := case |}.

Definition status (self : t) : string :=
  match JCase.result (_case self) with
  | None => "Passed"
  | Some _ => "Failed"
  end.

Definition name (self : t) (suite_prefix : bool) : string :=
  if negb suite_prefix then JCase.name (_case self)
  else JCase.classname (_case self) ++ ":" ++ JCase.name (_case self).
End _Testcase.

(** ** class _Testsuite *)

Module _Testsuite.
Record t : Type := mk
  { _suite : JSuite.t;
    _iter_suite : Iterator JCase.t }.

Definition __init__ (suite : JSuite.t) : t :=
  {| _suite := suite; _iter_suite := JSuite.__iter__ suite |}.

Definition __iter__ (self : t) : t := self.

(** [_Testcase(next(self._iter_suite))]: the cursor advances, and the
  exception of [next] leaves before a view is built. *)
Definition __next__ (self : t) : Raises _Testcase.t * t :=
  let '(r, it) := next (_iter_suite self) in
  let self' := {| _suite := _suite self; _iter_suite := it |} in
  match r with
  | inl e => (inl e, self')
  | inr case => (inr (_Testcase.__init__ case), self')
  end.

Definition __len__ (self : t) : Z := JSuite.__len__ (_suite self).

Definition name (self : t) : string := JSuite.name (_suite self).
End _Testsuite.

#[export] Instance _Testsuite_Iterator : PyIterator _Testsuite.t _Testcase.t :=
  {| py_next := _Testsuite.__next__ |}.

(** ** class _Testsuites *)

Module _Testsuites.
Record t : Type := mk
  { _xml : JUnitXml.t;
    _suites : Iterator JSuite.t }.

Definition __init__ (xml : JUnitXml.t) : t :=
  {| _xml := xml; _suites := JUnitXml.__iter__ xml |}.

Definition __iter__ (self : t) : t := self.

Definition __next__ (self : t) : Raises _Testsuite.t * t :=
  let '(r, it) := next (_suites self) in
  let self' := {| _xml := _xml self; _suites := it |} in
  match r with
  | inl e => (inl e, self')
  | inr suite => (inr (_Testsuite.__init__ suite), self')
  end.

Definition __len__ (self : t) : Z := JUnitXml.__len__ (_xml self).

Definition name (self : t) : string := JUnitXml.name (_xml self).
End _Testsuites.

#[export] Instance _Testsuites_Iterator : PyIterator _Testsuites.t _Testsuite.t :=
  {| py_next := _Testsuites.__next__ |}.

(** ** class TestXml (abstract) and its two implementations *)

Class TestXml (X : Type) : Type :=
  { name : X -> string;
    outcome : X -> _Outcome.t;
    testsuites : X -> _Testsuites.t }.

Module _TestXmlFromJUnit.
Record t : Type := mk
  { _xml : JUnitXml.t;
    _testsuites : _Testsuites.t;
    _outcome : _Outcome.t }.

Definition __init__ (xml : JUnitXml.t) : t :=
  {| _xml := xml;
     _testsuites := _Testsuites.__init__ xml;
     _outcome := _Outcome.__init__ xml |}.

Definition name (self : t) : string := JUnitXml.name (_xml self).
Definition outcome (self : t) : _Outcome.t := _outcome self.
Definition testsuites (self : t) : _Testsuites.t := _testsuites self.
End _TestXmlFromJUnit.

#[export] Instance _TestXmlFromJUnit_TestXml : TestXml _TestXmlFromJUnit.t :=
  {| name := _TestXmlFromJUnit.name;
     outcome := _TestXmlFromJUnit.outcome;
     testsuites := _TestXmlFromJUnit.testsuites |}.

Module PytestXml.
(** [_xml] is annotated [TestXml]; the constructor always stores a
    [_TestXmlFromJUnit], and the accessors go through the interface. *)
Record t : Type := mk
  { _xml : _TestXmlFromJUnit.t;
    _path : string }.

Section Parser.
  (** [JUnitXml.fromfile]: reads and parses the file at a path, or raises. *)
Variable fromfile : string -> Raises JUnitXml.t.

Definition __init__ (path : string) : Raises t :=
    match fromfile path with
    | inl e => inl e
    | inr parsed =>
        inr {| _xml := _TestXmlFromJUnit.__init__ parsed; _path := path |}
    end.
End Parser.

Definition name (self : t) : string := _path self.
Definition outcome (self : t) : _Outcome.t := outcome (_xml self).
Definition testsuites (self : t) : _Testsuites.t := testsuites (_xml self).
End PytestXml.

#[export] Instance PytestXml_TestXml : TestXml PytestXml.t :=
  {| name := PytestXml.name;
     outcome := PytestXml.outcome;
     testsuites := PytestXml.testsuites |}.

(** ** Logging

    The module-level [_logger] is modelled by the list of the records emitted
    through it, oldest first. *)

Record LogRecord : Type := mkLogRecord
  { levelname : string;
    message : string }.

Definition Logger : Type := list LogRecord.

(** [_logger.info(msg)], the message already formatted. *)
Definition info (msg : string) (log : Logger) : Logger :=
  (log ++ [ {| levelname := "INFO"; message := msg |} ])%list.

(** ** class ReportPage

    The page is a mutable object and its methods also write to the logger, so
    a method is a function from the memory before the call (the attributes of
    [self] and the log) to its return value and the memory after it. *)

Module ReportPage.
Section Page.
Context {X : Type} `{TestXml X}.

Record t : Type := mk
  { _xml : X;
    _content : string }.

Record Mem : Type := mkMem
  { self : t;
    _logger : Logger }.

Definition M (A : Type) : Type := Mem -> A * Mem.

Definition __init__ (xml : X) : t := {| _xml := xml; _content := "" |}.

(** The property [content]. *)
Definition content (page : t) : string := _content page.

(** The text [build_results_table] returns for a document. *)
Definition results_table (xml : X) : string :=
  "<h1>Test report:</h1>" ++ LF ++
  "Total: " ++ str_int (_Outcome.total (outcome xml)) ++ LF ++
  "Passed: " ++ str_int (_Outcome.passed (outcome xml)) ++ LF ++
  "Failed: " ++ str_int (_Outcome.failed (outcome xml)) ++ LF ++
  "Skipped: " ++ str_int (_Outcome.skipped (outcome xml)) ++ LF ++
  "Errored: " ++ str_int (_Outcome.errored (outcome xml)) ++ LF.

Definition build_results_table : M string :=
  fun m =>
    let log := info ("Collecting statistics from " ++ DQUOTE
                       ++ name (_xml (self m)) ++ DQUOTE ++ " file")
                    (_logger m) in
    (results_table (_xml (self m)), {| self := self m; _logger := log |}).

(** [self._content += self.build_results_table()] reads the attribute, then
    evaluates the call, then stores the concatenation.  The method returns
    [self]: the handle is the page of the memory after the call. *)
Definition __enter__ : M unit :=
  fun m =>
    if negb (truthy (_content (self m))) then
      let old := _content (self m) in
      let '(table, m1) := build_results_table m in
      (tt, {| self := {| _xml := _xml (self m1); _content := old ++ table |};
              _logger := _logger m1 |})
    else (tt, m).

(** [__exit__] receives the exception that left the block, if any, ignores
    it, and returns [None]. *)
Definition __exit__ (exception : option BaseException) : M unit :=
  fun m =>
    (tt, {| self := {| _xml := _xml (self m); _content := "" |};
            _logger := _logger m |}).

(** The statement [with page: body].  The body is any computation over the
    memory that ends normally or raises.  [__exit__] runs on both paths; its
    return value [None] is falsy, so an exception of the body goes on to the
    caller. *)
Definition with_ {A : Type} (body : Mem -> Raises A * Mem) : Mem -> Raises A * Mem :=
  fun m =>
    let '(_, m1) := __enter__ m in
    let '(r, m2) := body m1 in
    let raised := match r with inl e => Some e | inr _ => None end in
    let '(_, m3) := __exit__ raised m2 in
    (r, m3).

(** The states a page goes through when it is built by [__init__] and used
    through its methods. *)
Inductive reachable : t -> Prop :=
| reach_init (xml : X) : reachable (__init__ xml)
| reach_enter (m : Mem) :
    reachable (self m) -> reachable (self (snd (__enter__ m)))
| reach_build (m : Mem) :
    reachable (self m) -> reachable (self (snd (build_results_table m)))
| reach_exit (e : option BaseException) (m : Mem) :
    reachable (self m) -> reachable (self (snd (__exit__ e m))).

End Page.

Arguments t X : clear implicits.
Arguments Mem X : clear implicits.
Arguments M X A : clear implicits.
End ReportPage.

(** ** Reading a report back

    What a consumer of the page does with the text: cut it at the line feeds
    and read the number after each label. *)

(** [s.split(sep)] for a one-character separator. *)
Fixpoint split (sep : ascii) (s : string) : list string :=
  match s with
  | EmptyString => [EmptyString]
  | String c s' =>
      if Ascii.eqb c sep then EmptyString :: split sep s'
      else match split sep s' with
           | [] => [String c EmptyString]
           | l :: ls => String c l :: ls
           end
  end.

Definition split_lines (s : string) : list string := split "010"%char s.

(** Every character of [s] satisfies [p]. *)
Fixpoint string_forall (p : ascii -> bool) (s : string) : bool :=
  match s with
  | EmptyString => true
  | String c s' => p c && string_forall p s'
  end.

Definition is_digit (c : ascii) : bool :=
  (48 <=? nat_of_ascii c)%nat && (nat_of_ascii c <=? 57)%nat.

(** One or more decimal digits. *)
Definition is_digits (s : string) : bool :=
  truthy s && string_forall is_digit s.

(** A decimal integer as [str] writes it: digits, after an optional minus. *)
Definition is_int_literal (s : string) : bool :=
  match s with
  | EmptyString => false
  | String c s' => if Ascii.eqb c "-" then is_digits s' else is_digits s
  end.

Definition not_LF (c : ascii) : bool := negb (Ascii.eqb c "010").

(** [int(s)] on such a literal. *)
Definition int_of_str (s : string) : option Z :=
  option_map Z.of_int (NilZero.int_of_string s).

(** ** Views with their cursor moved

    The only attribute [__next__] assigns is the cursor; these name the view
    a step leaves behind. *)

Definition suite_moved (v : _Testsuite.t) (it : Iterator JCase.t) : _Testsuite.t :=
  {| _Testsuite._suite := _Testsuite._suite v; _Testsuite._iter_suite := it |}.

Definition suites_moved (v : _Testsuites.t) (it : Iterator JSuite.t) : _Testsuites.t :=
  {| _Testsuites._xml := _Testsuites._xml v; _Testsuites._suites := it |}.

(** ** A sample document

    The end-to-end scenario of the specification: ten tests, one skipped,
    two failed, none in error; one failing case [pkg.Mod:test_x]. *)

Definition sample_cases : list JCase.t :=
  [ JCase.mk "test_x" "pkg.Mod" (Some (JResult.Failure "assert 1 == 2"));
    JCase.mk "test_y" "pkg.Mod" None ].

Definition sample_report : JUnitXml.t :=
  JUnitXml.mk "pytest" 10 1 2 0
    [ JSuite.mk "unit" sample_cases; JSuite.mk "empty" [] ].

(** A file system holding that document under one path. *)
Definition sample_fromfile (path : string) : Raises JUnitXml.t :=
  if String.eqb path "pytest.xml" then inr sample_report
  else inl (Raised "FileNotFoundError" path).

Definition sample_xml : _TestXmlFromJUnit.t :=
  _TestXmlFromJUnit.__init__ sample_report.

(** A new page over the sample document, nothing logged yet. *)
Definition sample_mem : ReportPage.Mem _TestXmlFromJUnit.t :=
  ReportPage.mkMem (ReportPage.__init__ sample_xml) [].

(** The same page inside its [with] block. *)
Definition sample_entered : ReportPage.Mem _TestXmlFromJUnit.t :=
  snd (ReportPage.__enter__ sample_mem).

(** A block that raises. *)
Definition sample_failing_body (m : ReportPage.Mem _TestXmlFromJUnit.t)
  : Raises unit * ReportPage.Mem _TestXmlFromJUnit.t :=
  (inl (Raised "ValueError" "publishing failed"), m).

(** ** What the callers do with the values

    Reading a [dict] by key, and cutting a prefixed case name at its colon. *)

(** [d[key]] on a [dict] given by its items in insertion order; [None]
    stands for [KeyError]. *)
Fixpoint dict_get (key : string) (d : list (string * Z)) : option Z :=
  match d with
  | [] => None
  | (k, v) :: rest => if String.eqb k key then Some v else dict_get key rest
  end.

Definition not_colon (c : ascii) : bool := negb (Ascii.eqb c ":").

(** The log record [build_results_table] emits for a document name. *)
Definition collecting_record (document : string) : LogRecord :=
  {| levelname := "INFO";
     message := "Collecting statistics from " ++ DQUOTE ++ document
                ++ DQUOTE ++ " file" |}.

(** A block that reads the content and returns it, touching nothing. *)
Definition sample_reading_body (m : ReportPage.Mem _TestXmlFromJUnit.t)
  : Raises string * ReportPage.Mem _TestXmlFromJUnit.t :=
  (inr (ReportPage.content (ReportPage.self m)), m).

(** * Properties *)

(** ** Integers as text *)

Section StrInt.

Lemma uint_digits (d : Decimal.uint) :
  string_forall is_digit (NilEmpty.string_of_uint d) = true.
Proof. induction d; simpl; auto. Qed.

Lemma uint_nonempty (d : Decimal.uint) :
  d <> Decimal.Nil -> truthy (NilEmpty.string_of_uint d) = true.
Proof. destruct d; simpl; congruence. Qed.

Lemma nilzero_uint_is_digits (d : Decimal.uint) :
  is_digits (NilZero.string_of_uint d) = true.
Proof.
  unfold is_digits.
  destruct d; try reflexivity;
    (rewrite andb_true_iff; split;
     [ apply uint_nonempty; discriminate | apply uint_digits ]).
Qed.

Lemma digits_not_minus (c : ascii) (s : string) :
  is_digits (String c s) = true -> Ascii.eqb c "-" = false.
Proof.
  unfold is_digits; simpl. intros Hd.
  apply andb_true_iff in Hd as [Hc _].
  destruct (Ascii.eqb_spec c "-") as [-> | _]; [ discriminate Hc | reflexivity ].
Qed.

Lemma str_int_is_int_literal (n : Z) : is_int_literal (str_int n) = true.
Proof.
  unfold str_int.
  destruct n as [ | p | p ]; simpl Z.to_int; cbn [NilZero.string_of_int].
  - reflexivity.
  - pose proof (nilzero_uint_is_digits (Pos.to_uint p)) as Hd.
    destruct (NilZero.string_of_uint (Pos.to_uint p)) as [ | c s ] eqn:E.
    + discriminate Hd.
    + simpl. now rewrite (digits_not_minus c s Hd).
  - simpl. apply nilzero_uint_is_digits.
Qed.

Lemma str_int_roundtrip (n : Z) : int_of_str (str_int n) = Some n.
Proof.
  unfold int_of_str, str_int.
  rewrite NilZero.isi.
  - simpl. now rewrite DecimalZ.of_to.
  - destruct n; simpl; try discriminate.
    intros [= E]. now apply (Unsigned.to_uint_nonnil p).
  - destruct n; simpl; try discriminate.
    intros [= E]. now apply (Unsigned.to_uint_nonnil p).
Qed.

Lemma str_int_inj (a b : Z) : str_int a = str_int b -> a = b.
Proof.
  intros E. pose proof (str_int_roundtrip a) as Ha.
  rewrite E, str_int_roundtrip in Ha. congruence.
Qed.

Lemma digit_not_LF (c : ascii) : is_digit c = true -> not_LF c = true.
Proof.
  unfold not_LF. destruct (Ascii.eqb_spec c "010") as [-> | _]; [ | reflexivity ].
  discriminate.
Qed.

Lemma string_forall_impl (p q : ascii -> bool) (s : string) :
  (forall c, p c = true -> q c = true) ->
  string_forall p s = true -> string_forall q s = true.
Proof.
  intros Hpq. induction s as [ | c s IH ]; simpl; [ reflexivity | ].
  rewrite !andb_true_iff. intros [Hc Hs]. auto.
Qed.

Lemma int_literal_no_LF (s : string) :
  is_int_literal s = true -> string_forall not_LF s = true.
Proof.
  destruct s as [ | c s ]; simpl; [ discriminate | ].
  unfold is_digits.
  destruct (Ascii.eqb_spec c "-") as [-> | _]; rewrite andb_true_iff; intros [_ Hd].
  - simpl. now apply (string_forall_impl is_digit), Hd; apply digit_not_LF.
  - apply (string_forall_impl is_digit not_LF _ digit_not_LF) in Hd. exact Hd.
Qed.

Lemma str_int_no_LF (n : Z) : string_forall not_LF (str_int n) = true.
Proof. apply int_literal_no_LF, str_int_is_int_literal. Qed.

End StrInt.

(** ** Lines of a text *)

Section Lines.

Lemma split_nonempty (sep : ascii) (s : string) : split sep s <> [].
Proof.
  destruct s as [ | c s ]; simpl; [ discriminate | ].
  destruct (Ascii.eqb c sep); [ discriminate | ].
  destruct (split sep s); discriminate.
Qed.

(** A prefix free of the separator, then the separator: the prefix is the
    first piece and the cut goes on in the rest. *)
Lemma split_first (sep : ascii) (line rest : string) :
  string_forall (fun c => negb (Ascii.eqb c sep)) line = true ->
  split sep (line ++ String sep rest) = line :: split sep rest.
Proof.
  induction line as [ | c line IH ]; simpl.
  - intros _. now rewrite Ascii.eqb_refl.
  - rewrite andb_true_iff, negb_true_iff. intros [Hc Hl].
    rewrite Hc, (IH Hl). reflexivity.
Qed.

Lemma split_lines_first (line rest : string) :
  string_forall not_LF line = true ->
  split_lines (line ++ LF ++ rest) = line :: split_lines rest.
Proof. intros Hl. unfold split_lines. now apply split_first. Qed.

Lemma string_forall_app (p : ascii -> bool) (a b : string) :
  string_forall p (a ++ b) = string_forall p a && string_forall p b.
Proof.
  induction a as [ | c a IH ]; simpl; [ reflexivity | ].
  now rewrite IH, andb_assoc.
Qed.

Lemma app_assoc_string (a b c : string) : (a ++ b) ++ c = a ++ b ++ c.
Proof. induction a as [ | x a IH ]; simpl; congruence. Qed.

(** A line of the table: a label free of line feeds, then an integer. *)
Lemma counter_line_first (label : string) (n : Z) (rest : string) :
  string_forall not_LF label = true ->
  split_lines (label ++ str_int n ++ LF ++ rest)
  = (label ++ str_int n) :: split_lines rest.
Proof.
  intros Hl. rewrite <- app_assoc_string.
  apply split_lines_first.
  now rewrite string_forall_app, Hl, str_int_no_LF.
Qed.

Lemma counter_line_last (label : string) (n : Z) :
  string_forall not_LF label = true ->
  split_lines (label ++ str_int n ++ LF) = [ label ++ str_int n; "" ].
Proof.
  intros Hl.
  change (label ++ str_int n ++ LF) with (label ++ str_int n ++ LF ++ "").
  now rewrite counter_line_first.
Qed.

End Lines.

(** ** Iteration *)

Section IteratorLaws.

Context {I A B : Type} `{PyIterator I A}.

(** The cursor of a view, the view with its cursor moved, and the wrapper
    applied to the element a step yields. *)
Variable cursor : I -> Iterator B.
Variable moved : I -> Iterator B -> I.
Variable wrap : B -> A.

Hypothesis py_next_spec : forall it : I,
  py_next it =
  match cursor it with
  | [] => (inl StopIteration, moved it [])
  | b :: rest => (inr (wrap b), moved it rest)
  end.
Hypothesis cursor_moved : forall it l, cursor (moved it l) = l.
Hypothesis moved_moved : forall it l l', moved (moved it l) l' = moved it l'.

Lemma collect_S (fuel : nat) (it : I) :
  collect (S fuel) it =
  match py_next it with
  | (inl StopIteration, it') => Some (inr [], it')
  | (inl e, it') => Some (inl e, it')
  | (inr a, it') =>
      match collect fuel it' with
      | Some (inr l, it'') => Some (inr (a :: l), it'')
      | other => other
      end
  end.
Proof. reflexivity. Qed.

Lemma collect_cursor (extra : nat) (it : I) :
  collect (S (List.length (cursor it) + extra)) it
  = Some (inr (map wrap (cursor it)), moved it []).
Proof.
  remember (cursor it) as l eqn:El. revert it El.
  induction l as [ | b l IH ]; intros it El.
  - rewrite collect_S. now rewrite py_next_spec, <- El.
  - cbn [List.length Nat.add]. rewrite collect_S.
    rewrite py_next_spec, <- El.
    rewrite (IH (moved it l)) by now rewrite cursor_moved.
    now rewrite moved_moved.
Qed.

Lemma next_calls_exhausted (k : nat) (it : I) :
  next_calls k (moved it []) = (repeat (inl StopIteration) k, moved it []).
Proof.
  induction k as [ | k IH ]; cbn [next_calls repeat]; [ reflexivity | ].
  now rewrite py_next_spec, cursor_moved, moved_moved, IH.
Qed.

End IteratorLaws.

Section ViewCursors.

Lemma _Testsuite_next_spec (v : _Testsuite.t) :
  py_next v =
  match _Testsuite._iter_suite v with
  | [] => (inl StopIteration, suite_moved v [])
  | c :: rest => (inr (_Testcase.__init__ c), suite_moved v rest)
  end.
Proof.
  cbn [py_next _Testsuite_Iterator]. unfold _Testsuite.__next__, next.
  destruct (_Testsuite._iter_suite v); reflexivity.
Qed.

Lemma _Testsuites_next_spec (v : _Testsuites.t) :
  py_next v =
  match _Testsuites._suites v with
  | [] => (inl StopIteration, suites_moved v [])
  | s :: rest => (inr (_Testsuite.__init__ s), suites_moved v rest)
  end.
Proof.
  cbn [py_next _Testsuites_Iterator]. unfold _Testsuites.__next__, next.
  destruct (_Testsuites._suites v); reflexivity.
Qed.

End ViewCursors.

(** ** The claims of the specification *)

(** C1.  The outcome view of a document exposes the four raw counters
    unchanged, and [passed] is [total - skipped - failed - errored] with no
    clamping: it is negative exactly when the other three counters add up to
    more than the total, which does happen. *)
Theorem outcome_counters_and_passed :
  (forall report : JUnitXml.t,
      let o := _Outcome.__init__ report in
      _Outcome.total o = JUnitXml.tests report /\
      _Outcome.skipped o = JUnitXml.skipped report /\
      _Outcome.failed o = JUnitXml.failures report /\
      _Outcome.errored o = JUnitXml.errors report /\
      _Outcome.passed o
      = JUnitXml.tests report - JUnitXml.skipped report
        - JUnitXml.failures report - JUnitXml.errors report /\
      (_Outcome.passed o <? 0)
      = (JUnitXml.tests report
         <? JUnitXml.skipped report + JUnitXml.failures report
            + JUnitXml.errors report)) /\
  (exists report : JUnitXml.t, _Outcome.passed (_Outcome.__init__ report) < 0).
Proof.
  split.
  - intros report o. subst o.
    unfold _Outcome.passed, _Outcome.total, _Outcome.skipped,
      _Outcome.failed, _Outcome.errored, _Outcome.__init__.
    cbn [_Outcome._report].
    repeat split.
    destruct (Z.ltb_spec (JUnitXml.tests report - JUnitXml.skipped report
                          - JUnitXml.failures report - JUnitXml.errors report) 0);
      destruct (Z.ltb_spec (JUnitXml.tests report)
                  (JUnitXml.skipped report + JUnitXml.failures report
                   + JUnitXml.errors report));
      (reflexivity || lia).
  - exists (JUnitXml.mk "inconsistent" 1 1 1 0 []). reflexivity.
Qed.

(** C3.  [status()] returns one of the two strings "Passed" and "Failed",
    which differ, and it returns "Failed" exactly when the case carries a
    result object, "Passed" exactly when it carries none. *)
Theorem status_passed_or_failed (self : _Testcase.t) :
  (_Testcase.status self = "Passed" \/ _Testcase.status self = "Failed") /\
  "Passed" <> "Failed" /\
  (_Testcase.status self = "Failed"
   <-> JCase.result (_Testcase._case self) <> None) /\
  (_Testcase.status self = "Passed"
   <-> JCase.result (_Testcase._case self) = None).
Proof.
  unfold _Testcase.status.
  destruct (JCase.result (_Testcase._case self)) as [ r | ].
  - repeat split; (now right) || discriminate || auto.
  - repeat split; (now left) || discriminate || auto. intros E. now elim E.
Qed.

(** C4.  With [suite_prefix] true, [name] is the class name, a colon, then
    the case name; with [suite_prefix] false it is the bare case name. *)
Theorem name_with_and_without_prefix (case : JCase.t) :
  _Testcase.name (_Testcase.__init__ case) true
  = JCase.classname case ++ ":" ++ JCase.name case /\
  _Testcase.name (_Testcase.__init__ case) false = JCase.name case.
Proof. split; reflexivity. Qed.

(** C5.  Draining a fresh [_Testsuites] view yields one [_Testsuite] view
    per suite of the document, in document order, and draining a fresh
    [_Testsuite] view yields one [_Testcase] view per case of the suite, in
    document order; the drain ends as soon as it has made one call more than
    there are elements, and from then on every call of [__next__] raises
    [StopIteration] and leaves the view exhausted. *)
Theorem iteration_in_document_order :
  (forall (xml : JUnitXml.t) (extra k : nat),
      let view := _Testsuites.__init__ xml in
      let done := suites_moved view [] in
      collect (S (List.length (JUnitXml.suites xml) + extra)) view
      = Some (inr (map _Testsuite.__init__ (JUnitXml.suites xml)), done) /\
      List.length (map _Testsuite.__init__ (JUnitXml.suites xml))
      = List.length (JUnitXml.suites xml) /\
      next_calls k done = (repeat (inl StopIteration) k, done)) /\
  (forall (suite : JSuite.t) (extra k : nat),
      let view := _Testsuite.__init__ suite in
      let done := suite_moved view [] in
      collect (S (List.length (JSuite.cases suite) + extra)) view
      = Some (inr (map _Testcase.__init__ (JSuite.cases suite)), done) /\
      List.length (map _Testcase.__init__ (JSuite.cases suite))
      = List.length (JSuite.cases suite) /\
      next_calls k done = (repeat (inl StopIteration) k, done)).
Proof.
  split.
  - intros xml extra k view done. repeat split.
    + apply (collect_cursor _Testsuites._suites suites_moved _Testsuite.__init__
               _Testsuites_next_spec); reflexivity.
    + apply length_map.
    + apply (next_calls_exhausted _Testsuites._suites suites_moved
               _Testsuite.__init__ _Testsuites_next_spec); reflexivity.
  - intros suite extra k view done. repeat split.
    + apply (collect_cursor _Testsuite._iter_suite suite_moved _Testcase.__init__
               _Testsuite_next_spec); reflexivity.
    + apply length_map.
    + apply (next_calls_exhausted _Testsuite._iter_suite suite_moved
               _Testcase.__init__ _Testsuite_next_spec); reflexivity.
Qed.

(** C9.  When the parser returns a document for a path, [PytestXml] is
    built, its name is the path, whatever name the document declares (the
    base adapter reports that one), and its outcome and test suites are the
    ones the base adapter over the same document returns. *)
Theorem pytestxml_renames_and_delegates
  (fromfile : string -> Raises JUnitXml.t) (path : string) (parsed : JUnitXml.t) :
  fromfile path = inr parsed ->
  exists self : PytestXml.t,
    PytestXml.__init__ fromfile path = inr self /\
    name self = path /\
    name (_TestXmlFromJUnit.__init__ parsed) = JUnitXml.name parsed /\
    outcome self = outcome (_TestXmlFromJUnit.__init__ parsed) /\
    testsuites self = testsuites (_TestXmlFromJUnit.__init__ parsed).
Proof.
  intros Hparse. unfold PytestXml.__init__. rewrite Hparse.
  eexists. split; [ reflexivity | ]. repeat split.
Qed.

Section ReportPageClaims.

Context {X : Type} `{TestXml X}.

Import ReportPage.

Lemma truthy_false_iff (s : string) : truthy s = false <-> s = "".
Proof. destruct s; simpl; split; congruence. Qed.

Lemma results_table_truthy (xml : X) : truthy (results_table xml) = true.
Proof. reflexivity. Qed.

(** Entering with an empty buffer: the table is built once, logged once,
    and stored. *)
Lemma enter_empty (m : Mem X) :
  _content (self m) = "" ->
  __enter__ m
  = (tt, {| self := {| _xml := _xml (self m);
                       _content := results_table (_xml (self m)) |};
            _logger := _logger (snd (build_results_table m)) |}).
Proof.
  intros E. unfold __enter__. rewrite E. reflexivity.
Qed.

Lemma enter_nonempty (m : Mem X) :
  _content (self m) <> "" -> __enter__ m = (tt, m).
Proof.
  intros E. unfold __enter__.
  destruct (truthy (_content (self m))) eqn:T; [ reflexivity | ].
  now apply truthy_false_iff in T.
Qed.

Lemma enter_keeps_xml (m : Mem X) : _xml (self (snd (__enter__ m))) = _xml (self m).
Proof.
  unfold __enter__. destruct (negb (truthy (_content (self m)))); reflexivity.
Qed.

(** The buffer of a page used through its methods is empty or holds the
    table of its document. *)
Lemma reachable_content (page : t X) :
  reachable page ->
  _content page = "" \/ _content page = results_table (_xml page).
Proof.
  induction 1 as [ xml | m _ IH | m _ IH | e m _ IH ].
  - now left.
  - destruct (string_dec (_content (self m)) "") as [E | E].
    + rewrite (enter_empty m E). now right.
    + rewrite (enter_nonempty m E). exact IH.
  - exact IH.
  - now left.
Qed.

(** C2.  Acquiring a page whose buffer is empty stores, and exposes as the
    content of the returned handle, the title line followed by the five
    counter lines Total, Passed, Failed, Skipped, Errored in this order, each
    the label, a colon, a space, the decimal integer of the document's
    outcome and a line feed: cut at the line feeds, the content is exactly
    these six lines (and nothing after the last line feed). *)
Theorem enter_builds_report (m : Mem X) :
  _content (self m) = "" ->
  let page := self (snd (__enter__ m)) in
  let o := outcome (_xml (self m)) in
  content page
  = "<h1>Test report:</h1>" ++ LF ++
    "Total: " ++ str_int (_Outcome.total o) ++ LF ++
    "Passed: " ++ str_int (_Outcome.passed o) ++ LF ++
    "Failed: " ++ str_int (_Outcome.failed o) ++ LF ++
    "Skipped: " ++ str_int (_Outcome.skipped o) ++ LF ++
    "Errored: " ++ str_int (_Outcome.errored o) ++ LF /\
  split_lines (content page)
  = [ "<h1>Test report:</h1>";
      "Total: " ++ str_int (_Outcome.total o);
      "Passed: " ++ str_int (_Outcome.passed o);
      "Failed: " ++ str_int (_Outcome.failed o);
      "Skipped: " ++ str_int (_Outcome.skipped o);
      "Errored: " ++ str_int (_Outcome.errored o);
      "" ] /\
  _xml page = _xml (self m).
Proof.
  intros E page o. subst page. rewrite (enter_empty m E).
  cbn [snd self content _content _xml]. unfold results_table. fold o.
  repeat split.
  rewrite split_lines_first by reflexivity.
  rewrite !counter_line_first by reflexivity.
  now rewrite counter_line_last.
Qed.

(** C6.  [__exit__] empties the buffer whatever exception it is handed, and
    touches nothing else; so after [with page: body] the content is the
    empty string whether the body ended normally or raised, and what the
    body returned or raised reaches the caller unchanged. *)
Theorem exit_always_clears :
  (forall (e : option BaseException) (m : Mem X),
      content (self (snd (__exit__ e m))) = "" /\
      _xml (self (snd (__exit__ e m))) = _xml (self m) /\
      _logger (snd (__exit__ e m)) = _logger m) /\
  (forall (A : Type) (body : Mem X -> Raises A * Mem X) (m : Mem X),
      content (self (snd (with_ body m))) = "" /\
      fst (with_ body m) = fst (body (snd (__enter__ m)))).
Proof.
  split.
  - intros e m. repeat split.
  - intros A body m. unfold with_.
    destruct (__enter__ m) as [u m1]. cbn [snd].
    destruct (body m1) as [r m2]. cbn [fst].
    split; reflexivity.
Qed.

(** C7.  Acquiring a page whose buffer is not empty changes nothing: the
    page, its content and the log are those of before, so the table is
    neither built again nor appended a second time. *)
Theorem reenter_is_noop (m : Mem X) :
  _content (self m) <> "" ->
  __enter__ m = (tt, m) /\
  content (self (snd (__enter__ m))) = content (self m) /\
  _logger (snd (__enter__ m)) = _logger m.
Proof.
  intros E. rewrite (enter_nonempty m E). repeat split.
Qed.

(** C8.  For a page used through its methods, and a block that leaves the
    page's document in place: after [with page: body] the content is empty,
    and acquiring again gives the very content the first acquisition gave. *)
Theorem reacquire_same_content
  (A : Type) (body : Mem X -> Raises A * Mem X) (m : Mem X) :
  reachable (self m) ->
  let first := snd (__enter__ m) in
  _xml (self (snd (body first))) = _xml (self first) ->
  let released := snd (with_ body m) in
  let second := snd (__enter__ released) in
  content (self released) = "" /\
  content (self second) = content (self first).
Proof.
  intros R first Hxml released second.
  assert (Hrel : self released
                 = {| _xml := _xml (self m); _content := "" |}).
  { subst released. unfold with_. fold first.
    rewrite (surjective_pairing (__enter__ m)). fold first.
    destruct (body first) as [r m2] eqn:Eb. cbn [snd] in Hxml.
    cbn [snd __exit__ self]. rewrite Hxml. subst first.
    now rewrite enter_keeps_xml. }
  split.
  - now rewrite Hrel.
  - subst second. rewrite (enter_empty released) by now rewrite Hrel.
    cbn [snd self content _content]. rewrite Hrel. cbn [_xml].
    subst first. unfold content.
    destruct (string_dec (_content (self m)) "") as [E | E].
    + now rewrite (enter_empty m E).
    + rewrite (enter_nonempty m E). cbn [snd].
      destruct (reachable_content _ R) as [E' | E']; congruence.
Qed.

(** C10.  [build_results_table] returns the table of the page's document
    and leaves the page as it was, its content in particular; its only
    effect is one record on the log. *)
Theorem build_results_table_keeps_buffer (m : Mem X) :
  fst (build_results_table m) = results_table (_xml (self m)) /\
  self (snd (build_results_table m)) = self m /\
  content (self (snd (build_results_table m))) = content (self m) /\
  List.length (_logger (snd (build_results_table m)))
  = S (List.length (_logger m)).
Proof.
  repeat split. cbn [build_results_table snd _logger]. unfold info.
  rewrite length_app. cbn [List.length]. apply Nat.add_1_r.
Qed.

End ReportPageClaims.

(** ** The claims at the sample document *)

Lemma enter_builds_report_sample :
  ReportPage._content (ReportPage.self sample_mem) = "" /\
  ReportPage.content (ReportPage.self (snd (ReportPage.__enter__ sample_mem)))
  = "<h1>Test report:</h1>" ++ LF ++ "Total: 10" ++ LF ++ "Passed: 7" ++ LF
    ++ "Failed: 2" ++ LF ++ "Skipped: 1" ++ LF ++ "Errored: 0" ++ LF /\
  split_lines
    (ReportPage.content (ReportPage.self (snd (ReportPage.__enter__ sample_mem))))
  = [ "<h1>Test report:</h1>"; "Total: 10"; "Passed: 7"; "Failed: 2";
      "Skipped: 1"; "Errored: 0"; "" ].
Proof.
  split; [ reflexivity | ].
  pose proof (enter_builds_report sample_mem eq_refl) as [Hc [Hl _]].
  split; [ exact Hc | exact Hl ].
Defined.

Lemma reenter_is_noop_sample :
  ReportPage._content (ReportPage.self sample_entered) <> "" /\
  ReportPage.__enter__ sample_entered = (tt, sample_entered).
Proof.
  assert (Hne : ReportPage._content (ReportPage.self sample_entered) <> "").
  { vm_compute. discriminate. }
  split; [ exact Hne | exact (proj1 (reenter_is_noop sample_entered Hne)) ].
Defined.

Lemma reacquire_same_content_sample :
  ReportPage.reachable (ReportPage.self sample_mem) /\
  ReportPage.content
    (ReportPage.self (snd (ReportPage.with_ sample_failing_body sample_mem))) = "" /\
  ReportPage.content
    (ReportPage.self
       (snd (ReportPage.__enter__
               (snd (ReportPage.with_ sample_failing_body sample_mem)))))
  = ReportPage.content (ReportPage.self sample_entered).
Proof.
  assert (R : ReportPage.reachable (ReportPage.self sample_mem)).
  { exact (ReportPage.reach_init sample_xml). }
  split; [ exact R | ].
  exact (reacquire_same_content unit sample_failing_body sample_mem R eq_refl).
Defined.

Lemma pytestxml_renames_and_delegates_sample :
  sample_fromfile "pytest.xml" = inr sample_report /\
  exists self : PytestXml.t,
    PytestXml.__init__ sample_fromfile "pytest.xml" = inr self /\
    name self = "pytest.xml" /\
    name sample_xml = "pytest" /\
    outcome self = outcome sample_xml /\
    testsuites self = testsuites sample_xml.
Proof.
  split; [ reflexivity | ].
  exact (pytestxml_renames_and_delegates sample_fromfile "pytest.xml"
           sample_report eq_refl).
Defined.

(** ** Further facts about the views *)

(** The mapping of an outcome lists the five counters in the order total,
    skipped, failed, errored, passed. *)
Lemma as_dict_keys (o : _Outcome.t) :
  map fst (_Outcome.as_dict o)
  = [ "total"; "skipped"; "failed"; "errored"; "passed" ] /\
  map snd (_Outcome.as_dict o)
  = [ _Outcome.total o; _Outcome.skipped o; _Outcome.failed o;
      _Outcome.errored o; _Outcome.passed o ].
Proof. split; reflexivity. Qed.

(** The views are single-pass: draining a drained view yields nothing, while
    its length still counts the elements of the document. *)
Lemma drained_view_is_empty (xml : JUnitXml.t) (fuel : nat) :
  let done := suites_moved (_Testsuites.__init__ xml) [] in
  collect (S fuel) done = Some (inr [], done) /\
  _Testsuites.__len__ done = Z.of_nat (List.length (JUnitXml.suites xml)).
Proof. split; reflexivity. Qed.

(** When the parser raises, [PytestXml] is not built and the exception is
    the parser's. *)
Lemma pytestxml_parse_error
  (fromfile : string -> Raises JUnitXml.t) (path : string) (e : BaseException) :
  fromfile path = inl e -> PytestXml.__init__ fromfile path = inl e.
Proof. intros E. unfold PytestXml.__init__. now rewrite E. Qed.

(** The failing case of the sample document. *)
Lemma sample_case_failed :
  match sample_cases with
  | case :: _ =>
      _Testcase.status (_Testcase.__init__ case) = "Failed" /\
      _Testcase.name (_Testcase.__init__ case) true = "pkg.Mod:test_x"
  | [] => False
  end.
Proof. split; reflexivity. Qed.

(** ** Iteration, step by step *)

Section IteratorSteps.

Context {I A B : Type} `{PyIterator I A}.

Variable cursor : I -> Iterator B.
Variable moved : I -> Iterator B -> I.
Variable wrap : B -> A.

Hypothesis py_next_spec : forall it : I,
  py_next it =
  match cursor it with
  | [] => (inl StopIteration, moved it [])
  | b :: rest => (inr (wrap b), moved it rest)
  end.
Hypothesis cursor_moved : forall it l, cursor (moved it l) = l.
Hypothesis moved_moved : forall it l l', moved (moved it l) l' = moved it l'.
Hypothesis moved_cursor : forall it, moved it (cursor it) = it.

(** [k] calls of [__next__]: the first [k] elements under the cursor,
    wrapped, then [StopIteration] for every call past the end; the cursor is
    left [k] elements further, or at the end. *)
Lemma next_calls_steps (k : nat) (it : I) :
  next_calls k it
  = ((map (fun b => inr (wrap b)) (firstn k (cursor it))
      ++ repeat (inl StopIteration) (k - List.length (cursor it)))%list,
     moved it (skipn k (cursor it))).
Proof.
  revert it. induction k as [ | k IH ]; intros it.
  - cbn [next_calls firstn skipn map Nat.sub repeat app]. now rewrite moved_cursor.
  - cbn [next_calls]. rewrite py_next_spec.
    destruct (cursor it) as [ | b rest ] eqn:E.
    + rewrite IH, cursor_moved, moved_moved.
      rewrite firstn_nil, skipn_nil. cbn [map app List.length firstn skipn].
      rewrite Nat.sub_0_r. reflexivity.
    + rewrite IH, cursor_moved, moved_moved. reflexivity.
Qed.

End IteratorSteps.

Section ViewSteps.

Lemma suites_moved_cursor (v : _Testsuites.t) :
  suites_moved v (_Testsuites._suites v) = v.
Proof. now destruct v. Qed.

Lemma suite_moved_cursor (v : _Testsuite.t) :
  suite_moved v (_Testsuite._iter_suite v) = v.
Proof. now destruct v. Qed.

Lemma _Testsuites_steps (k : nat) (v : _Testsuites.t) :
  next_calls k v
  = ((map (fun s => inr (_Testsuite.__init__ s)) (firstn k (_Testsuites._suites v))
      ++ repeat (inl StopIteration) (k - List.length (_Testsuites._suites v)))%list,
     suites_moved v (skipn k (_Testsuites._suites v))).
Proof.
  apply (next_calls_steps _Testsuites._suites suites_moved _Testsuite.__init__
           _Testsuites_next_spec); try reflexivity.
  apply suites_moved_cursor.
Qed.

Lemma _Testsuite_steps (k : nat) (v : _Testsuite.t) :
  next_calls k v
  = ((map (fun c => inr (_Testcase.__init__ c)) (firstn k (_Testsuite._iter_suite v))
      ++ repeat (inl StopIteration) (k - List.length (_Testsuite._iter_suite v)))%list,
     suite_moved v (skipn k (_Testsuite._iter_suite v))).
Proof.
  apply (next_calls_steps _Testsuite._iter_suite suite_moved _Testcase.__init__
           _Testsuite_next_spec); try reflexivity.
  apply suite_moved_cursor.
Qed.

End ViewSteps.

(** ** Further properties of the code *)

(** X1.  Read by key, the mapping of an outcome gives the five counters;
    any other key is missing; no key occurs twice; and the four partial
    counts of the mapping always add up to its total. *)
Theorem as_dict_lookup (o : _Outcome.t) :
  let d := _Outcome.as_dict o in
  dict_get "total" d = Some (_Outcome.total o) /\
  dict_get "skipped" d = Some (_Outcome.skipped o) /\
  dict_get "failed" d = Some (_Outcome.failed o) /\
  dict_get "errored" d = Some (_Outcome.errored o) /\
  dict_get "passed" d = Some (_Outcome.passed o) /\
  (forall key : string,
      dict_get key d = None
      <-> ~ In key [ "total"; "skipped"; "failed"; "errored"; "passed" ]) /\
  NoDup (map fst d) /\
  (forall p s f e : Z,
      dict_get "passed" d = Some p -> dict_get "skipped" d = Some s ->
      dict_get "failed" d = Some f -> dict_get "errored" d = Some e ->
      dict_get "total" d = Some (p + s + f + e)).
Proof.
  intros d. subst d. unfold _Outcome.as_dict.
  repeat split; try reflexivity.
  - cbn [dict_get]. intros Hnone Hin.
    cbn [In] in Hin.
    destruct Hin as [<- | [<- | [<- | [<- | [<- | []]]]]]; discriminate Hnone.
  - cbn [dict_get In]. intros Hnot.
    repeat match goal with
    | |- context [ String.eqb ?k key ] =>
        destruct (String.eqb_spec k key) as [E | _];
        [ exfalso; apply Hnot; rewrite <- E; auto 10 | ]
    end.
    reflexivity.
  - cbn [map fst]. repeat constructor; cbn [In]; intuition discriminate.
  - cbn [dict_get String.eqb]. cbn. intros p s f e [= <-] [= <-] [= <-] [= <-].
    f_equal. unfold _Outcome.passed. lia.
Qed.

(** X2.  [k] calls of [__next__] on a [_Testsuites] view, wherever its
    cursor stands, yield views of the next [k] suites in order and then
    [StopIteration] for each call past the end; the cursor ends [k] suites
    further, and the name and the length of the view are what they were:
    the length counts the suites of the document, not the suites left. *)
Theorem testsuites_next_k_times (k : nat) (v : _Testsuites.t) :
  let left := _Testsuites._suites v in
  let v' := snd (next_calls k v) in
  fst (next_calls k v)
  = (map (fun s => inr (_Testsuite.__init__ s)) (firstn k left)
     ++ repeat (inl StopIteration) (k - List.length left))%list /\
  _Testsuites._suites v' = skipn k left /\
  _Testsuites.__len__ v' = _Testsuites.__len__ v /\
  _Testsuites.__len__ v
  = Z.of_nat (List.length (JUnitXml.suites (_Testsuites._xml v))) /\
  _Testsuites.name v' = _Testsuites.name v.
Proof.
  intros left v'. subst left v'. rewrite _Testsuites_steps. cbn [fst snd].
  repeat split.
Qed.

(** X3.  The same for a [_Testsuite] view and its cases. *)
Theorem testsuite_next_k_times (k : nat) (v : _Testsuite.t) :
  let left := _Testsuite._iter_suite v in
  let v' := snd (next_calls k v) in
  fst (next_calls k v)
  = (map (fun c => inr (_Testcase.__init__ c)) (firstn k left)
     ++ repeat (inl StopIteration) (k - List.length left))%list /\
  _Testsuite._iter_suite v' = skipn k left /\
  _Testsuite.__len__ v' = _Testsuite.__len__ v /\
  _Testsuite.__len__ v
  = Z.of_nat (List.length (JSuite.cases (_Testsuite._suite v))) /\
  _Testsuite.name v' = _Testsuite.name v.
Proof.
  intros left v'. subst left v'. rewrite _Testsuite_steps. cbn [fst snd].
  repeat split.
Qed.

(** X4.  The views are single-pass.  After [k] calls of [__next__] on a
    new view, [iter(view)] is the view itself, so a loop over it starts
    where the cursor stands: it yields the elements from position [k] on and
    no others, and a second loop over the same view yields nothing. *)
Theorem views_resume_and_do_not_restart (k extra extra' : nat) :
  (forall xml : JUnitXml.t,
      let view := snd (next_calls k (_Testsuites.__init__ xml)) in
      let rest := skipn k (JUnitXml.suites xml) in
      let done := suites_moved view [] in
      _Testsuites.__iter__ view = view /\
      collect (S (List.length rest + extra)) (_Testsuites.__iter__ view)
      = Some (inr (map _Testsuite.__init__ rest), done) /\
      collect (S extra') (_Testsuites.__iter__ done) = Some (inr [], done)) /\
  (forall suite : JSuite.t,
      let view := snd (next_calls k (_Testsuite.__init__ suite)) in
      let rest := skipn k (JSuite.cases suite) in
      let done := suite_moved view [] in
      _Testsuite.__iter__ view = view /\
      collect (S (List.length rest + extra)) (_Testsuite.__iter__ view)
      = Some (inr (map _Testcase.__init__ rest), done) /\
      collect (S extra') (_Testsuite.__iter__ done) = Some (inr [], done)).
Proof.
  split.
  - intros xml view rest done. subst view rest done.
    rewrite _Testsuites_steps. cbn [snd]. unfold _Testsuites.__iter__.
    repeat split.
    apply (collect_cursor _Testsuites._suites suites_moved _Testsuite.__init__
             _Testsuites_next_spec); reflexivity.
  - intros suite view rest done. subst view rest done.
    rewrite _Testsuite_steps. cbn [snd]. unfold _Testsuite.__iter__.
    repeat split.
    apply (collect_cursor _Testsuite._iter_suite suite_moved _Testcase.__init__
             _Testsuite_next_spec); reflexivity.
Qed.

(** X5.  Nested traversal.  Every suite view that a [_Testsuites] view
    yields is new: drained, it yields a view of each case of its suite, in
    order, in [len(view) + 1] calls.  Suite by suite, the case views reached
    through a new [_Testsuites] view are those of the cases of the
    document. *)
Theorem nested_traversal_reaches_every_case (xml : JUnitXml.t) (extra : nat) :
  exists (views : list _Testsuite.t) (done : _Testsuites.t),
    collect (S (List.length (JUnitXml.suites xml) + extra)) (_Testsuites.__init__ xml)
    = Some (inr views, done) /\
    map _Testsuite.name views = map JSuite.name (JUnitXml.suites xml) /\
    map (fun v => option_map fst (collect (S (Z.to_nat (_Testsuite.__len__ v))) v)) views
    = map (fun s => Some (inr (map _Testcase.__init__ (JSuite.cases s))))
        (JUnitXml.suites xml).
Proof.
  exists (map _Testsuite.__init__ (JUnitXml.suites xml)),
    (suites_moved (_Testsuites.__init__ xml) []).
  split; [ | split ].
  - apply (collect_cursor _Testsuites._suites suites_moved _Testsuite.__init__
             _Testsuites_next_spec); reflexivity.
  - rewrite map_map. reflexivity.
  - rewrite map_map. apply map_ext. intros s.
    unfold _Testsuite.__len__, JSuite.__len__. cbn [_Testsuite.__init__ _Testsuite._suite].
    rewrite Nat2Z.id.
    rewrite <- (Nat.add_0_r (List.length (JSuite.cases s))).
    replace (collect (S (List.length (JSuite.cases s) + 0))
               {| _Testsuite._suite := s; _Testsuite._iter_suite := JSuite.__iter__ s |})
      with (Some (inr (map _Testcase.__init__ (JSuite.cases s)) : Raises (list _Testcase.t),
                  suite_moved (_Testsuite.__init__ s) [])).
    + reflexivity.
    + symmetry.
      apply (collect_cursor _Testsuite._iter_suite suite_moved _Testcase.__init__
               _Testsuite_next_spec); reflexivity.
Qed.

Section TextFacts.

Lemma app_inv_head_string (a x y : string) : a ++ x = a ++ y -> x = y.
Proof.
  induction a as [ | c a IH ]; simpl; [ auto | ].
  intros [= E]. auto.
Qed.

Lemma split_head_injective (sep : ascii) (a b x y : string) :
  string_forall (fun c => negb (Ascii.eqb c sep)) a = true ->
  string_forall (fun c => negb (Ascii.eqb c sep)) b = true ->
  a ++ String sep x = b ++ String sep y -> a = b /\ x = y.
Proof.
  intros Ha Hb E.
  pose proof (f_equal (split sep) E) as Hs.
  rewrite (split_first sep a x Ha), (split_first sep b y Hb) in Hs.
  injection Hs as Hab _. subst b.
  apply app_inv_head_string in E. injection E as E. auto.
Qed.

End TextFacts.

(** X9.  When class names hold no colon, the prefixed name of a case tells
    the class name and the case name apart: cut at its first colon it gives
    back the class name, and two cases with the same prefixed name have the
    same class name and the same name. *)
Theorem prefixed_name_determines_case (c1 c2 : JCase.t) :
  string_forall not_colon (JCase.classname c1) = true ->
  string_forall not_colon (JCase.classname c2) = true ->
  _Testcase.name (_Testcase.__init__ c1) true
  = _Testcase.name (_Testcase.__init__ c2) true ->
  JCase.classname c1 = JCase.classname c2 /\
  JCase.name c1 = JCase.name c2 /\
  hd "" (split ":" (_Testcase.name (_Testcase.__init__ c1) true))
  = JCase.classname c1.
Proof.
  intros H1 H2 E.
  unfold _Testcase.name in *. cbn [negb _Testcase.__init__ _Testcase._case] in *.
  destruct (split_head_injective ":" _ _ _ _ H1 H2 E) as [Hc Hn].
  repeat split; auto.
  change (JCase.classname c1 ++ ":" ++ JCase.name c1)
    with (JCase.classname c1 ++ String ":" (JCase.name c1)).
  now rewrite (split_first ":" _ _ H1).
Qed.

Section ReportPageFacts.

Context {X : Type} `{TestXml X}.

Import ReportPage.

Lemma results_table_lines (xml : X) :
  split_lines (results_table xml)
  = [ "<h1>Test report:</h1>";
      "Total: " ++ str_int (_Outcome.total (outcome xml));
      "Passed: " ++ str_int (_Outcome.passed (outcome xml));
      "Failed: " ++ str_int (_Outcome.failed (outcome xml));
      "Skipped: " ++ str_int (_Outcome.skipped (outcome xml));
      "Errored: " ++ str_int (_Outcome.errored (outcome xml));
      "" ].
Proof.
  unfold results_table.
  rewrite split_lines_first by reflexivity.
  rewrite !counter_line_first by reflexivity.
  now rewrite counter_line_last.
Qed.

(** X6.  The report text tells the counters: two documents get the same
    table exactly when their total, skipped, failed and errored counts are
    the same.  Nothing else of a document (its name, its suites) shows in
    the text. *)
Theorem results_table_determined_by_counters (a b : X) :
  results_table a = results_table b
  <-> (_Outcome.total (outcome a) = _Outcome.total (outcome b) /\
       _Outcome.skipped (outcome a) = _Outcome.skipped (outcome b) /\
       _Outcome.failed (outcome a) = _Outcome.failed (outcome b) /\
       _Outcome.errored (outcome a) = _Outcome.errored (outcome b)).
Proof.
  split.
  - intros E. apply (f_equal split_lines) in E.
    rewrite !results_table_lines in E.
    injection E as Ht _ Hf Hs He.
    apply str_int_inj in Ht, Hf, Hs, He. auto.
  - intros (Ht & Hs & Hf & He).
    unfold results_table, _Outcome.passed. now rewrite Ht, Hs, Hf, He.
Qed.

(** X8.  Whatever methods were called on a page since [__init__], its
    content is empty or is the table of its own document, seven pieces when
    cut at the line feeds: never a table twice over, and never the table of
    another document. *)
Theorem page_buffer_invariant (page : t X) :
  reachable page ->
  content page = "" \/
  (content page = results_table (_xml page) /\
   List.length (split_lines (content page)) = 7%nat).
Proof.
  intros R. destruct (reachable_content page R) as [E | E]; [ now left | right ].
  unfold content. rewrite E. split; [ reflexivity | ].
  now rewrite results_table_lines.
Qed.

(** X10.  One statistics record per build.  When the block itself logs
    nothing, [with page: body] adds to the log exactly one record, naming
    the document, if the buffer was empty on entry (the table was built),
    and no record if it was not; the records already there stay in place. *)
Theorem with_logs_once_per_build
  (A : Type) (body : Mem X -> Raises A * Mem X) (m : Mem X) :
  let entered := snd (__enter__ m) in
  _logger (snd (body entered)) = _logger entered ->
  _logger (snd (with_ body m))
  = if truthy (_content (self m)) then _logger m
    else (_logger m ++ [ collecting_record (name (_xml (self m))) ])%list.
Proof.
  intros entered Hbody. unfold with_. fold entered.
  rewrite (surjective_pairing (__enter__ m)). fold entered.
  destruct (body entered) as [r m2] eqn:Eb. cbn [snd] in Hbody.
  cbn [snd __exit__ _logger]. rewrite Hbody. subst entered.
  unfold __enter__. destruct (truthy (_content (self m))); reflexivity.
Qed.

End ReportPageFacts.

(** X7.  A page over a [PytestXml] gets the same table as a page over the
    base adapter of the parsed document; the two differ only in the log,
    where the first names the path and the second the name the document
    declares. *)
Theorem pytestxml_page_same_table_logs_path
  (fromfile : string -> Raises JUnitXml.t) (path : string)
  (parsed : JUnitXml.t) (log : Logger) :
  fromfile path = inr parsed ->
  exists self : PytestXml.t,
    PytestXml.__init__ fromfile path = inr self /\
    let by_path :=
      ReportPage.build_results_table
        (ReportPage.mkMem (ReportPage.__init__ self) log) in
    let by_name :=
      ReportPage.build_results_table
        (ReportPage.mkMem
           (ReportPage.__init__ (_TestXmlFromJUnit.__init__ parsed)) log) in
    fst by_path = fst by_name /\
    ReportPage._logger (snd by_path) = (log ++ [ collecting_record path ])%list /\
    ReportPage._logger (snd by_name)
    = (log ++ [ collecting_record (JUnitXml.name parsed) ])%list.
Proof.
  intros Hparse. unfold PytestXml.__init__. rewrite Hparse.
  eexists. split; [ reflexivity | ]. repeat split.
Qed.

(** X11.  Inside the block the content is the table.  For a page used
    through its methods, whatever state it was left in, the handle that
    [__enter__] returns has the table of the page's document as content, and
    this content is not empty. *)
Theorem content_inside_block
  (X : Type) (H : TestXml X) (m : ReportPage.Mem X) :
  ReportPage.reachable (ReportPage.self m) ->
  let handle := ReportPage.self (snd (ReportPage.__enter__ m)) in
  ReportPage.content handle
  = ReportPage.results_table (ReportPage._xml (ReportPage.self m)) /\
  ReportPage._xml handle = ReportPage._xml (ReportPage.self m) /\
  truthy (ReportPage.content handle) = true.
Proof.
  intros R handle. subst handle.
  assert (E : ReportPage.content (ReportPage.self (snd (ReportPage.__enter__ m)))
              = ReportPage.results_table (ReportPage._xml (ReportPage.self m))).
  { destruct (string_dec (ReportPage._content (ReportPage.self m)) "") as [E | E].
    - now rewrite (enter_empty m E).
    - rewrite (enter_nonempty m E). cbn [snd].
      destruct (reachable_content _ R) as [E' | E']; [ contradiction | exact E' ]. }
  split; [ exact E | split ].
  - apply enter_keeps_xml.
  - rewrite E. reflexivity.
Qed.

(** X12.  From the raw counters to the lines.  For the adapter over a
    parsed document, and for [PytestXml] built from it, the text that
    [build_results_table] returns, cut at the line feeds, is the title and
    the five labels followed by the document's [tests], then [tests -
    skipped - failures - errors], then [failures], [skipped] and [errors] in
    decimal, then the empty piece after the last line feed. *)
Theorem report_lines_from_raw_counters
  (parsed : JUnitXml.t) (path : string) (log : Logger) :
  let lines :=
    [ "<h1>Test report:</h1>";
      "Total: " ++ str_int (JUnitXml.tests parsed);
      "Passed: " ++ str_int (JUnitXml.tests parsed - JUnitXml.skipped parsed
                             - JUnitXml.failures parsed - JUnitXml.errors parsed);
      "Failed: " ++ str_int (JUnitXml.failures parsed);
      "Skipped: " ++ str_int (JUnitXml.skipped parsed);
      "Errored: " ++ str_int (JUnitXml.errors parsed);
      "" ] in
  let base := _TestXmlFromJUnit.__init__ parsed in
  split_lines
    (fst (ReportPage.build_results_table
            (ReportPage.mkMem (ReportPage.__init__ base) log))) = lines /\
  split_lines
    (fst (ReportPage.build_results_table
            (ReportPage.mkMem
               (ReportPage.__init__ (PytestXml.mk base path)) log))) = lines.
Proof.
  intros lines base. subst lines base.
  split; cbn [fst ReportPage.build_results_table ReportPage.self ReportPage._xml
                ReportPage.__init__]; now rewrite results_table_lines.
Qed.

(** ** The further properties at the sample document *)

Lemma prefixed_name_determines_case_sample :
  string_forall not_colon "pkg.Mod" = true /\
  hd "" (split ":" "pkg.Mod:test_x") = "pkg.Mod".
Proof.
  split; [ reflexivity | ].
  exact (proj2 (proj2 (prefixed_name_determines_case
                         (JCase.mk "test_x" "pkg.Mod" None)
                         (JCase.mk "test_x" "pkg.Mod" (Some (JResult.Skipped "slow")))
                         eq_refl eq_refl eq_refl))).
Defined.

Lemma page_buffer_invariant_sample :
  ReportPage.reachable (ReportPage.self sample_entered) /\
  (ReportPage.content (ReportPage.self sample_entered) = "" \/
   (ReportPage.content (ReportPage.self sample_entered)
    = ReportPage.results_table sample_xml /\
    List.length (split_lines (ReportPage.content (ReportPage.self sample_entered)))
    = 7%nat)).
Proof.
  assert (R : ReportPage.reachable (ReportPage.self sample_entered)).
  { exact (ReportPage.reach_enter sample_mem (ReportPage.reach_init sample_xml)). }
  split; [ exact R | exact (page_buffer_invariant (ReportPage.self sample_entered) R) ].
Defined.

Lemma with_logs_once_per_build_sample :
  ReportPage._logger (snd (sample_reading_body sample_entered))
  = ReportPage._logger sample_entered /\
  ReportPage._logger (snd (ReportPage.with_ sample_reading_body sample_mem))
  = [ collecting_record "pytest" ] /\
  fst (ReportPage.with_ sample_reading_body sample_mem)
  = inr (ReportPage.results_table sample_xml).
Proof.
  split; [ reflexivity | split ].
  - exact (with_logs_once_per_build string sample_reading_body sample_mem eq_refl).
  - reflexivity.
Defined.

Lemma pytestxml_page_same_table_logs_path_sample :
  sample_fromfile "pytest.xml" = inr sample_report /\
  exists self : PytestXml.t,
    PytestXml.__init__ sample_fromfile "pytest.xml" = inr self /\
    fst (ReportPage.build_results_table
           (ReportPage.mkMem (ReportPage.__init__ self) []))
    = fst (ReportPage.build_results_table sample_mem) /\
    ReportPage._logger
      (snd (ReportPage.build_results_table
              (ReportPage.mkMem (ReportPage.__init__ self) [])))
    = [ collecting_record "pytest.xml" ] /\
    ReportPage._logger (snd (ReportPage.build_results_table sample_mem))
    = [ collecting_record "pytest" ].
Proof.
  split; [ reflexivity | ].
  exact (pytestxml_page_same_table_logs_path sample_fromfile "pytest.xml"
           sample_report [] eq_refl).
Defined.

Lemma content_inside_block_sample :
  ReportPage.reachable (ReportPage.self sample_entered) /\
  ReportPage.content
    (ReportPage.self (snd (ReportPage.__enter__ sample_entered)))
  = ReportPage.results_table sample_xml.
Proof.
  assert (R : ReportPage.reachable (ReportPage.self sample_entered)).
  { exact (ReportPage.reach_enter sample_mem (ReportPage.reach_init sample_xml)). }
  split; [ exact R | ].
  exact (proj1 (content_inside_block _ _ sample_entered R)).
Defined.
